(** * ChatGLM: the LLM adapter of [langchain/llms/chatglm.py]

    A shallow embedding of the class [ChatGLM] (its fields, the property
    [_identifying_params] and the method [_call]) together with the
    collaborators the method talks to: the optional import of
    [zhipuai.utils.jwt_token], [requests.post] and the response object it
    returns.  Python values are an inductive type, dictionaries are finite
    maps with string keys, exceptions are data, and the one mutable field
    ([history]) is threaded through the call explicitly. *)

From Stdlib Require Import ZArith Floats Lia.
From stdpp Require Import gmap strings list fin_maps pretty.

Local Open Scope string_scope.
Local Open Scope Z_scope.

(** ** Python values

    What a JSON document parses to, what a payload holds, and what the
    entries of [history] are.  [float] is the IEEE 754 binary64 type, as in
    Python; the code only stores and forwards floats. *)

#[warnings="-register-all"]
Inductive value : Type :=
| VNone
| VBool (b : bool)
| VInt (z : Z)
| VFloat (f : float)
| VStr (s : string)
| VList (l : list value)
| VDict (d : gmap string value).

(** ** Exceptions

    One constructor for each [raise] statement of [_call], with the data its
    message is built from, and one for each exception that can escape without
    a [raise] of the method's own.  The text of an exception of another
    library is kept as an uninterpreted string. *)

Definition foreign := string.

Inductive exn : Type :=
| Must_install_zhipuai (e : foreign)
    (* l.94  Exception("Must install zhipuai, use`pip install zhipuai`", e) *)
| Api_key_not_provided
    (* l.96  Exception("api_key not provided, ...") *)
| Error_raised_by_endpoint (e : foreign)
    (* l.119 ValueError(f"Error raised by inference endpoint: {e}") *)
| Failed_with_response (shown : string)
    (* l.124 ValueError(f"Failed with response: {response}") *)
| No_content_in_response (parsed : value)
    (* l.134 ValueError(f"No content in response : {parsed_response}") *)
| Unexpected_response_type (parsed : value)
    (* l.136 ValueError(f"Unexpected response type: {parsed_response}") *)
| Error_during_decoding (e : foreign) (body : string)
    (* l.139 ValueError(f"Error raised during decoding ...: {e}.\nResponse: {response.text}") *)
| KeyError (key : value)        (* a subscript on a dict without that key *)
| IndexError                    (* a subscript past the end of a list or str *)
| TypeError                     (* a subscript or str operation on the wrong type *)
| Escaped (e : foreign).        (* l.100 whatever generate_token raises *)

(** The Python class of each exception. *)
Inductive py_class : Type :=
| ExceptionClass | ValueErrorClass | KeyErrorClass | IndexErrorClass
| TypeErrorClass | ForeignClass.

Definition class_of (e : exn) : py_class :=
  match e with
  | Must_install_zhipuai _ | Api_key_not_provided => ExceptionClass
  | Error_raised_by_endpoint _ | Failed_with_response _
  | No_content_in_response _ | Unexpected_response_type _
  | Error_during_decoding _ _ => ValueErrorClass
  | KeyError _ => KeyErrorClass
  | IndexError => IndexErrorClass
  | TypeError => TypeErrorClass
  | Escaped _ => ForeignClass
  end.

(** The five failure kinds of the specification's taxonomy, each attached to
    the [raise] statements that implement it.  An exception that no [raise]
    statement of [_call] produces belongs to none of them. *)
Inductive error_kind : Type :=
| ConfigurationError | DependencyMissingError | TransportError
| UpstreamError | ResponseParseError.

Definition kind_of (e : exn) : option error_kind :=
  match e with
  | Must_install_zhipuai _ => Some DependencyMissingError
  | Api_key_not_provided => Some ConfigurationError
  | Error_raised_by_endpoint _ => Some TransportError
  | Failed_with_response _ => Some UpstreamError
  | No_content_in_response _ | Unexpected_response_type _
  | Error_during_decoding _ _ => Some ResponseParseError
  | KeyError _ | IndexError | TypeError | Escaped _ => None
  end.

(** ** Subscripts

    [v[k]] for a string key and [v[i]] for an integer index, on every kind of
    value a parsed document can hold.  The keys of a parsed JSON object are
    strings, so an integer subscript on a dict never finds its key. *)

Definition getitem_str (v : value) (k : string) : exn + value :=
  match v with
  | VDict d => match d !! k with
               | Some x => inr x
               | None => inl (KeyError (VStr k))
               end
  | _ => inl TypeError
  end.

Definition char_at (s : string) (n : nat) : option string :=
  match String.get n s with
  | Some c => Some (String c EmptyString)
  | None => None
  end.

(** A negative index counts from the end. *)
Definition position (len : nat) (i : Z) : option nat :=
  if 0 <=? i then Some (Z.to_nat i)
  else if 0 <=? Z.of_nat len + i then Some (Z.to_nat (Z.of_nat len + i))
  else None.

Definition getitem_int (v : value) (i : Z) : exn + value :=
  match v with
  | VDict _ => inl (KeyError (VInt i))
  | VList l => match position (length l) i ≫= (l !!.) with
               | Some x => inr x
               | None => inl IndexError
               end
  | VStr s => match position (String.length s) i ≫= char_at s with
              | Some c => inr (VStr c)
              | None => inl IndexError
              end
  | _ => inl TypeError
  end.

(** ** The client *)

Record ChatGLM : Type := {
  endpoint_url : string;
  api_key : string;
  model_kwargs : option (gmap string value);
  max_token : Z;
  temperature : float;
  history : list value;
  top_p : float;
  with_history : bool;
  return_type : option string
}.

(** The class defaults (l.28-43). *)
#[warnings="-inexact-float"]
Definition default_ChatGLM : ChatGLM := {|
  endpoint_url := "http://127.0.0.1:8000/";
  api_key := "";
  model_kwargs := None;
  max_token := 20000;
  temperature := 0.1;
  history := [];
  top_p := 0.7;
  with_history := false;
  return_type := Some "text"
|}.

Definition set_history (self : ChatGLM) (h : list value) : ChatGLM := {|
  endpoint_url := endpoint_url self;
  api_key := api_key self;
  model_kwargs := model_kwargs self;
  max_token := max_token self;
  temperature := temperature self;
  history := h;
  top_p := top_p self;
  with_history := with_history self;
  return_type := return_type self
|}.

Definition _llm_type (self : ChatGLM) : string := "chat_glm".

(** [self.model_kwargs or {}]: [None] and the empty dict are both falsy. *)
Definition or_empty (d : option (gmap string value)) : gmap string value :=
  match d with
  | Some m => if decide (m = ∅) then ∅ else m
  | None => ∅
  end.

(** [p.update(d)], and [{**p, **d}]: the keys of [d] win. *)
Definition update (p d : gmap string value) : gmap string value := d ∪ p.

Definition _identifying_params (self : ChatGLM) : gmap string value :=
  let _model_kwargs := or_empty (model_kwargs self) in
  update {[ "endpoint_url" := VStr (endpoint_url self) ]}
         {[ "model_kwargs" := VDict _model_kwargs ]}.

(** ** The collaborators of [_call] *)

Record Request : Type := {
  req_url : string;
  req_headers : gmap string string;
  req_json : gmap string value
}.

(** [json] is what [response.json()] does: the parsed body, or the
    [JSONDecodeError] it raises. *)
Record Response : Type := {
  status_code : Z;
  text : string;
  json : foreign + value
}.

(** [str(response)], which the f-string of l.124 interpolates: the
    [requests] library prints a response as [<Response [status]>]. *)
Definition Response_str (r : Response) : string :=
  "<Response [" +:+ pretty (status_code r) +:+ "]>".

(** What surrounds one call: whether [from zhipuai.utils import jwt_token]
    succeeds (and then what [jwt_token.generate_token] does), and what
    [requests.post] answers to a request ([inl]: a [RequestException]). *)
Record Env : Type := {
  import_jwt_token : foreign + (string -> foreign + string);
  requests_post : Request -> foreign + Response
}.

(** ** Trimming at stop markers *)

(** [str.find]: the least index at which [sub] occurs in [s]. *)
Fixpoint find (sub s : string) : option nat :=
  if String.prefix sub s then Some 0%nat
  else match s with
       | EmptyString => None
       | String _ s' => S <$> find sub s'
       end.

Fixpoint minimum (l : list nat) : option nat :=
  match l with
  | [] => None
  | n :: l' => match minimum l' with
               | Some m => Some (Nat.min n m)
               | None => Some n
               end
  end.

(** Modelled from the spec: [enforce_stop_tokens] of [langchain/llms/utils.py]
    is not among the sources.  Section 4.1, step 8: truncate the text at the
    first occurrence of any stop marker, "earliest-position policy: scan all
    markers, cut at the minimum index found, discard everything from that
    index onward; if none found, return text unchanged".  Markers are literal
    substrings. *)
Definition enforce_stop_tokens (txt : string) (stop : list string) : string :=
  match minimum (omap (fun marker => find marker txt) stop) with
  | Some i => String.substring 0 i txt
  | None => txt
  end.

(** The helper takes a [str]; the content of a response may be any value. *)
Definition trim (txt : value) (stop : option (list string)) : exn + value :=
  match stop with
  | None => inr txt
  | Some markers =>
      match txt with
      | VStr s => inr (VStr (enforce_stop_tokens s markers))
      | _ => inl TypeError
      end
  end.

(** ** [_call] *)

(** What a call leaves behind: the value returned or the exception raised,
    the client afterwards, and the requests handed to [requests.post]. *)
Record Outcome : Type := {
  result : exn + value;
  self_after : ChatGLM;
  posts : list Request
}.

Definition raise (self : ChatGLM) (sent : list Request) (e : exn) : Outcome :=
  {| result := inl e; self_after := self; posts := sent |}.

(** The payload literal of l.102-109. *)
Definition default_payload (self : ChatGLM) (prompt : string)
  : gmap string value :=
  {[ "prompt" := VStr prompt;
     "temperature" := VFloat (temperature self);
     "history" := VList (history self);
     "max_length" := VInt (max_token self);
     "top_p" := VFloat (top_p self);
     "return_type" := match return_type self with
                      | Some s => VStr s
                      | None => VNone
                      end ]}.

(** l.102-111: the literal, then the two [update]s. *)
Definition build_payload (self : ChatGLM) (prompt : string)
    (kwargs : gmap string value) : gmap string value :=
  let _model_kwargs := or_empty (model_kwargs self) in
  update (update (default_payload self prompt) _model_kwargs) kwargs.

Definition build_headers (jwt_api_key_ : string) : gmap string string :=
  <[ "Authorization" := jwt_api_key_ ]>
    {[ "Accept" := "application/json";
       "Content-Type" := "application/json; charset=UTF-8" ]}.

(** [parsed_response[content_keys]["choices"][0]["content"]] (l.132). *)
Definition content_of (data : value) : exn + value :=
  match getitem_str data "choices" with
  | inl e => inl e
  | inr choices =>
      match getitem_int choices 0 with
      | inl e => inl e
      | inr first => getitem_str first "content"
      end
  end.

(** l.126-149, once a response with status 200 is in hand. *)
Definition unwrap (self : ChatGLM) (sent : list Request)
    (stop : option (list string)) (response : Response) : Outcome :=
  match json response with
  | inl e => raise self sent (Error_during_decoding e (text response))
  | inr parsed_response =>
      match parsed_response with
      | VDict d =>
          match d !! "data" with
          | Some data =>
              match content_of data with
              | inl e => raise self sent e
              | inr txt =>
                  match trim txt stop with
                  | inl e => raise self sent e
                  | inr txt' =>
                      if with_history self then
                        match getitem_str data "choices" with
                        | inl e => raise self sent e
                        | inr choices =>
                            {| result := inr txt';
                               self_after :=
                                 set_history self
                                   (history self ++ [VList [VNone; choices]]);
                               posts := sent |}
                        end
                      else
                        {| result := inr txt'; self_after := self;
                           posts := sent |}
                  end
              end
          | None => raise self sent (No_content_in_response parsed_response)
          end
      | _ => raise self sent (Unexpected_response_type parsed_response)
      end
  end.

Definition build_request (self : ChatGLM) (prompt : string)
    (kwargs : gmap string value) (jwt_api_key_ : string) : Request :=
  {| req_url := endpoint_url self;
     req_headers := build_headers jwt_api_key_;
     req_json := build_payload self prompt kwargs |}.

Definition _call (env : Env) (self : ChatGLM) (prompt : string)
    (stop : option (list string)) (kwargs : gmap string value) : Outcome :=
  match import_jwt_token env with
  | inl e => raise self [] (Must_install_zhipuai e)
  | inr generate_token =>
      if decide (api_key self = "") then raise self [] Api_key_not_provided
      else
        match generate_token (api_key self) with
        | inl e => raise self [] (Escaped e)
        | inr jwt_api_key_ =>
            let request := build_request self prompt kwargs jwt_api_key_ in
            match requests_post env request with
            | inl e => raise self [request] (Error_raised_by_endpoint e)
            | inr response =>
                if decide (status_code response = 200) then
                  unwrap self [request] stop response
                else
                  raise self [request]
                        (Failed_with_response (Response_str response))
            end
        end
  end.

(** ** Runs of calls *)

Record Call : Type := {
  call_env : Env;
  call_prompt : string;
  call_stop : option (list string);
  call_kwargs : gmap string value
}.

Definition call (self : ChatGLM) (c : Call) : Outcome :=
  _call (call_env c) self (call_prompt c) (call_stop c) (call_kwargs c).

(** The calls of a run act on one client, each on what the one before it
    left behind. *)
Fixpoint run (self : ChatGLM) (calls : list Call) : list Outcome :=
  match calls with
  | [] => []
  | c :: rest => let o := call self c in o :: run (self_after o) rest
  end.

Definition final (self : ChatGLM) (outcomes : list Outcome) : ChatGLM :=
  default self (last (self_after <$> outcomes)).

Definition succeeded (o : Outcome) : Prop :=
  match result o with inr _ => True | inl _ => False end.

(** The value under [data.choices] in the reply to the call's request, as
    the endpoint sent it. *)
Definition raw_choices (c : Call) (o : Outcome) : option value :=
  match posts o with
  | [request] =>
      match requests_post (call_env c) request with
      | inr response =>
          match json response with
          | inr (VDict d) =>
              match d !! "data" with
              | Some (VDict dd) => dd !! "choices"
              | _ => None
              end
          | _ => None
          end
      | inl _ => None
      end
  | _ => None
  end.

(** The call got as far as a reply: the import worked, there is a key, the
    token was signed and [requests.post] returned [response]. *)
Definition answered (env : Env) (self : ChatGLM) (prompt : string)
    (kwargs : gmap string value) (response : Response) : Prop :=
  exists generate_token jwt_api_key_,
    import_jwt_token env = inr generate_token /\
    api_key self <> "" /\
    generate_token (api_key self) = inr jwt_api_key_ /\
    requests_post env (build_request self prompt kwargs jwt_api_key_)
      = inr response.

(** ** Fixtures: the endpoint of the specification's examples *)

Definition sign (key : string) : foreign + string := inr ("jwt:" +:+ key).

Definition serving (response : Response) : Env :=
  {| import_jwt_token := inr sign;
     requests_post := fun _ => inr response |}.

Definition not_installed : Env :=
  {| import_jwt_token := inl "No module named 'zhipuai'";
     requests_post := fun _ => inl "unreachable" |}.

#[warnings="-inexact-float"]
Definition client (key : string) (keep : bool) : ChatGLM := {|
  endpoint_url := "http://127.0.0.1:8000/";
  api_key := key;
  model_kwargs := None;
  max_token := 20000;
  temperature := 0.1;
  history := [];
  top_p := 0.7;
  with_history := keep;
  return_type := Some "text"
|}.

Definition choices_of (content : value) : value :=
  VList [VDict {[ "content" := content ]}].

Definition envelope (content : value) : value :=
  VDict {[ "data" := VDict {[ "choices" := choices_of content ]} ]}.

Definition ok_response (body : value) : Response :=
  {| status_code := 200; text := "(body)"; json := inr body |}.

Definition i_am_a_model : Response :=
  ok_response (envelope (VStr "I am a model.")).

(** ** Vocabulary of the properties, and the inputs of the examples *)

(** [data] has the shape [{"choices": [{"content": v}, ...], ...}]. *)
Definition well_shaped (data v : value) : Prop :=
  exists dd c rest,
    data = VDict dd /\
    dd !! "choices" = Some (VList (VDict c :: rest)) /\
    c !! "content" = Some v.

(** The call fails with an exception of the given kind. *)
Definition raises (o : Outcome) (k : error_kind) : Prop :=
  exists e, result o = inl e /\ kind_of e = Some k.

(** The call fails with an exception that only a subscript produces. *)
Definition lookup_error (o : Outcome) : Prop :=
  exists e, result o = inl e /\ kind_of e = None /\
    (class_of e = KeyErrorClass \/ class_of e = IndexErrorClass \/
     class_of e = TypeErrorClass).

Definition unexpected_shape : Response :=
  ok_response (VDict {[ "unexpected" := VStr "shape" ]}).

Definition no_choices : Response :=
  ok_response (VDict {[ "data" := VDict ∅ ]}).

Definition quote : string := String (Ascii.ascii_of_nat 34) EmptyString.

(** The body [{"error":"boom"}] of the specification's example. *)
Definition boom_text : string :=
  "{" +:+ quote +:+ "error" +:+ quote +:+ ":" +:+ quote +:+ "boom" +:+ quote
      +:+ "}".

Definition boom : Response :=
  {| status_code := 500; text := boom_text;
     json := inr (VDict {[ "error" := VStr "boom" ]}) |}.

Definition plain_500 : Response :=
  {| status_code := 500; text := "Internal Server Error";
     json := inl "Expecting value: line 1 column 1 (char 0)" |}.

Definition overrides : gmap string value :=
  {[ "top_p" := VInt 1; "max_length" := VInt 7 ]}.

Definition tuned : ChatGLM :=
  {| endpoint_url := "http://127.0.0.1:8000/"; api_key := "k.s";
     model_kwargs := Some {[ "max_length" := VInt 512 ]};
     max_token := 20000; temperature := 0; history := [];
     top_p := 1; with_history := false; return_type := None |}.

(** A client that has already recorded one exchange. *)
Definition seasoned : ChatGLM :=
  set_history (client "k.s" true)
    [VList [VNone; choices_of (VStr "I am a model.")]].

Definition fresh_start : gmap string value := {[ "history" := VList [] ]}.

(** [marker] occurs in [txt] at index [i]. *)
Definition occurs (marker txt : string) (i : nat) : Prop :=
  exists pre post, txt = pre +:+ marker +:+ post /\ String.length pre = i.

(** What a call recorded, if it recorded anything: [[None, choices]]. *)
Definition recorded (c : Call) (o : Outcome) (entry : value) : Prop :=
  exists choices, raw_choices c o = Some choices /\
                  entry = VList [VNone; choices].

Definition asking (stop : option (list string)) : Call :=
  {| call_env := serving i_am_a_model; call_prompt := "Who are you?";
     call_stop := stop; call_kwargs := ∅ |}.

(** ** Further inputs of the examples *)

(** An endpoint that cannot be reached. *)
Definition unreachable : Env :=
  {| import_jwt_token := inr sign;
     requests_post := fun _ => inl "Connection refused" |}.

(** A signing routine that rejects every key. *)
Definition rejecting : Env :=
  {| import_jwt_token := inr (fun _ => inl "invalid api_key");
     requests_post := fun _ => inr i_am_a_model |}.

(** A reply with status 200 whose body is not JSON. *)
Definition not_json : Response :=
  {| status_code := 200; text := "<html>busy</html>";
     json := inl "Expecting value: line 1 column 1 (char 0)" |}.

(** The call returned a value. *)
Definition returned (o : Outcome) : bool :=
  match result o with inr _ => true | inl _ => false end.

Definition six_fields : gset string :=
  {[ "prompt"; "temperature"; "history"; "max_length"; "top_p";
     "return_type" ]}.

Definition set_model_kwargs (self : ChatGLM)
    (m : option (gmap string value)) : ChatGLM := {|
  endpoint_url := endpoint_url self;
  api_key := api_key self;
  model_kwargs := m;
  max_token := max_token self;
  temperature := temperature self;
  history := history self;
  top_p := top_p self;
  with_history := with_history self;
  return_type := return_type self
|}.

(** * Properties *)

(** ** How a call unfolds *)

Lemma or_empty_default (d : option (gmap string value)) :
  or_empty d = default ∅ d.
Proof.
  destruct d as [m|]; simpl; [|done].
  case_decide; congruence.
Qed.

Lemma call_answered env self prompt stop kwargs response :
  answered env self prompt kwargs response ->
  exists request,
    posts (_call env self prompt stop kwargs) = [request] /\
    requests_post env request = inr response /\
    req_json request = build_payload self prompt kwargs /\
    _call env self prompt stop kwargs =
      if decide (status_code response = 200)
      then unwrap self [request] stop response
      else raise self [request] (Failed_with_response (Response_str response)).
Proof.
  intros (gen & jwt & Himp & Hkey & Hjwt & Hpost).
  exists (build_request self prompt kwargs jwt).
  unfold _call. rewrite Himp.
  destruct (decide (api_key self = "")) as [|_]; [done|].
  rewrite Hjwt. cbv zeta. rewrite Hpost.
  repeat split; try done.
  case_decide; [|done].
  unfold unwrap, raise.
  repeat (case_match; simpl; try done).
Qed.

(** Whatever happens, [unwrap] reports the requests it was given. *)
Lemma posts_unwrap self sent stop response :
  posts (unwrap self sent stop response) = sent.
Proof. unfold unwrap, raise. repeat (case_match; simpl; try done). Qed.

Lemma posts_call env self prompt stop kwargs request :
  request ∈ posts (_call env self prompt stop kwargs) ->
  req_json request = build_payload self prompt kwargs.
Proof.
  unfold _call, raise.
  repeat (case_match; simpl; try rewrite posts_unwrap);
    intros Hin; try (by apply elem_of_nil in Hin);
    apply list_elem_of_singleton in Hin; by subst.
Qed.

(** A call that raises leaves the client as it was. *)
Lemma unwrap_raises self sent stop response e :
  result (unwrap self sent stop response) = inl e ->
  self_after (unwrap self sent stop response) = self.
Proof. unfold unwrap, raise. repeat (case_match; simpl; try done). Qed.

Lemma call_raises env self prompt stop kwargs e :
  result (_call env self prompt stop kwargs) = inl e ->
  self_after (_call env self prompt stop kwargs) = self.
Proof.
  unfold _call, raise. repeat (case_match; simpl; try done).
  apply unwrap_raises.
Qed.

(** A call without history tracking leaves the client as it was. *)
Lemma unwrap_untracked self sent stop response :
  with_history self = false ->
  self_after (unwrap self sent stop response) = self.
Proof.
  intros Hoff. unfold unwrap, raise. rewrite Hoff.
  repeat (case_match; simpl; try done).
Qed.

Lemma call_untracked env self prompt stop kwargs :
  with_history self = false ->
  self_after (_call env self prompt stop kwargs) = self.
Proof.
  intros Hoff. unfold _call, raise. repeat (case_match; simpl; try done).
  by apply unwrap_untracked.
Qed.

(** ** The shape of a reply *)

Lemma getitem_str_inr v k x :
  getitem_str v k = inr x <-> exists d, v = VDict d /\ d !! k = Some x.
Proof.
  split.
  - destruct v; simpl; try done.
    destruct (d !! k) eqn:E; [|done]. intros [= <-]. eauto.
  - intros (d & -> & H). simpl. by rewrite H.
Qed.

Lemma getitem_int_0_dict v c :
  getitem_int v 0 = inr (VDict c) <-> exists rest, v = VList (VDict c :: rest).
Proof.
  split.
  - destruct v as [| | | |s|l|]; simpl; try done.
    + destruct (char_at s _); simpl; [|done]. by intros [=].
    + destruct l as [|x rest]; simpl; [done|]. intros [= ->]. eauto.
  - by intros (rest & ->).
Qed.

(** The lookup of l.132 succeeds exactly on the well-shaped replies. *)
Lemma content_of_inr data v :
  content_of data = inr v <-> well_shaped data v.
Proof.
  unfold content_of, well_shaped. split.
  - destruct (getitem_str data "choices") as [|choices] eqn:E1; [done|].
    destruct (getitem_int choices 0) as [|first] eqn:E2; [done|].
    intros E3.
    apply getitem_str_inr in E1 as (dd & -> & Hdd).
    apply getitem_str_inr in E3 as (c & -> & Hc).
    apply getitem_int_0_dict in E2 as (rest & ->).
    by exists dd, c, rest.
  - intros (dd & c & rest & -> & Hdd & Hc). simpl. rewrite Hdd. simpl.
    by rewrite Hc.
Qed.

(** When it fails, what escapes is the subscript's own exception. *)
Lemma content_of_inl data e :
  content_of data = inl e ->
  class_of e = KeyErrorClass \/ class_of e = IndexErrorClass \/
  class_of e = TypeErrorClass.
Proof.
  unfold content_of, getitem_str, getitem_int. intros H.
  repeat case_match; simplify_eq/=; auto.
Qed.

Lemma content_of_cases data :
  (exists v, well_shaped data v) \/ (exists e, content_of data = inl e).
Proof.
  destruct (content_of data) as [e|v] eqn:E; [right; eauto|].
  left. exists v. by apply content_of_inr.
Qed.

(** ** Strings *)

Lemma string_app_cons a (s t : string) : String a s +:+ t = String a (s +:+ t).
Proof. reflexivity. Qed.

Lemma string_length_app (s t : string) :
  String.length (s +:+ t) = (String.length s + String.length t)%nat.
Proof.
  induction s as [|a s IH]; [done|]. rewrite string_app_cons. simpl. by rewrite IH.
Qed.

Lemma string_app_cancel_r (s1 s2 t : string) : s1 +:+ t = s2 +:+ t -> s1 = s2.
Proof.
  revert s2. induction s1 as [|a s1 IH]; intros [|b s2] H.
  - done.
  - apply (f_equal String.length) in H.
    rewrite !string_length_app in H. simpl in H. lia.
  - apply (f_equal String.length) in H.
    rewrite !string_length_app in H. simpl in H. lia.
  - rewrite !string_app_cons in H. injection H as -> H. f_equal. by apply IH.
Qed.

(** The printed form of a response says its status, and nothing else. *)
Lemma Response_str_status (r1 r2 : Response) :
  Response_str r1 = Response_str r2 <-> status_code r1 = status_code r2.
Proof.
  unfold Response_str. split; [|by intros ->].
  intros H. apply String.app_inj in H. apply string_app_cancel_r in H.
  by apply pretty_Z_inj in H.
Qed.

(** ** Replies with status 200 *)

Section Reply200.
Context (env : Env) (self : ChatGLM) (prompt : string)
        (stop : option (list string)) (kwargs : gmap string value)
        (response : Response).
Hypothesis Hanswered : answered env self prompt kwargs response.
Hypothesis Hstatus : status_code response = 200.

Lemma call_200 :
  exists sent, _call env self prompt stop kwargs
               = unwrap self sent stop response.
Proof.
  destruct (call_answered _ _ _ stop _ _ Hanswered)
    as (request & _ & _ & _ & ->).
  exists [request]. by destruct (decide _).
Qed.

Lemma call_not_a_dict parsed :
  json response = inr parsed -> (forall d, parsed <> VDict d) ->
  _call env self prompt stop kwargs
  = raise self (posts (_call env self prompt stop kwargs))
          (Unexpected_response_type parsed).
Proof.
  intros Hjson Hshape. destruct call_200 as (sent & ->).
  rewrite posts_unwrap. unfold unwrap. rewrite Hjson.
  destruct parsed; try done. by destruct (Hshape d).
Qed.

Lemma call_no_data d :
  json response = inr (VDict d) -> d !! "data" = None ->
  _call env self prompt stop kwargs
  = raise self (posts (_call env self prompt stop kwargs))
          (No_content_in_response (VDict d)).
Proof.
  intros Hjson Hdata. destruct call_200 as (sent & ->).
  rewrite posts_unwrap. unfold unwrap. by rewrite Hjson, Hdata.
Qed.

Lemma call_lookup_fails d data e :
  json response = inr (VDict d) -> d !! "data" = Some data ->
  content_of data = inl e ->
  _call env self prompt stop kwargs
  = raise self (posts (_call env self prompt stop kwargs)) e.
Proof.
  intros Hjson Hdata He. destruct call_200 as (sent & ->).
  rewrite posts_unwrap. unfold unwrap. by rewrite Hjson, Hdata, He.
Qed.

(** The well-shaped reply: the content goes through [trim], and the
    client records the raw choices when it keeps a history. *)
Lemma call_well_shaped d dd c rest v :
  json response = inr (VDict d) -> d !! "data" = Some (VDict dd) ->
  dd !! "choices" = Some (VList (VDict c :: rest)) ->
  c !! "content" = Some v ->
  let o := _call env self prompt stop kwargs in
  match trim v stop with
  | inl e => result o = inl e /\ self_after o = self
  | inr v' =>
      result o = inr v' /\
      self_after o =
        if with_history self
        then set_history self
               (history self ++ [VList [VNone; VList (VDict c :: rest)]])
        else self
  end.
Proof.
  intros Hjson Hdata Hchoices Hcontent. cbv zeta.
  destruct call_200 as (sent & ->). unfold unwrap.
  rewrite Hjson, Hdata.
  assert (content_of (VDict dd) = inr v) as ->.
  { apply content_of_inr. by exists dd, c, rest. }
  destruct (trim v stop) as [e|v']; [done|].
  destruct (with_history self); [|done].
  simpl. by rewrite Hchoices.
Qed.
End Reply200.

(** ** The fixtures answer *)

Lemma answered_serving key keep prompt kwargs response :
  key <> "" ->
  answered (serving response) (client key keep) prompt kwargs response.
Proof. intros Hkey. by exists sign, ("jwt:" +:+ key). Qed.

(** ** C1 *)

(** C1, as stated, fails: the reply [{"data": {}}] has status 200 and parses,
    the shape under "data" mismatches ("choices" is missing), and what
    [_call] raises is the [KeyError] of the subscript, which is no
    ResponseParseError. *)
Lemma C1_counterexample :
  let o := _call (serving no_choices) (client "k.s" false) "Who are you?"
                 None ∅ in
  result o = inl (KeyError (VStr "choices")) /\
  ~ raises o ResponseParseError.
Proof.
  cbv zeta.
  assert (result (_call (serving no_choices) (client "k.s" false)
                        "Who are you?" None ∅)
          = inl (KeyError (VStr "choices"))) as H
    by (vm_compute; reflexivity).
  split; [exact H|].
  intros (e & He & Hk). rewrite H in He. injection He as <-. discriminate Hk.
Qed.

(** C1, amended: for every reply with status 200 whose body parses as JSON,
    if the top level is not a mapping or the key "data" is absent, the call
    raises a ResponseParseError; if the lookup [data.choices[0].content]
    cannot be made (for instance "choices" missing, the choices list empty,
    or "content" absent), the call fails with the subscript's own [KeyError],
    [IndexError] or [TypeError], which is not a ResponseParseError.  In each
    case the client is left as it was. *)
Theorem C1_parse_failures env self prompt stop kwargs response parsed :
  answered env self prompt kwargs response ->
  status_code response = 200 ->
  json response = inr parsed ->
  let o := _call env self prompt stop kwargs in
  ((forall d, parsed <> VDict d) ->
     result o = inl (Unexpected_response_type parsed) /\
     raises o ResponseParseError /\ self_after o = self) /\
  (forall d, parsed = VDict d -> d !! "data" = None ->
     result o = inl (No_content_in_response parsed) /\
     raises o ResponseParseError /\ self_after o = self) /\
  (forall d data, parsed = VDict d -> d !! "data" = Some data ->
     (~ exists v, well_shaped data v) ->
     lookup_error o /\ ~ raises o ResponseParseError /\ self_after o = self) /\
  (forall d dd, parsed = VDict d -> d !! "data" = Some (VDict dd) ->
     (dd !! "choices" = None ->
        result o = inl (KeyError (VStr "choices"))) /\
     (dd !! "choices" = Some (VList []) -> result o = inl IndexError) /\
     (forall c rest, dd !! "choices" = Some (VList (VDict c :: rest)) ->
        c !! "content" = None ->
        result o = inl (KeyError (VStr "content")))).
Proof.
  intros Hans Hst Hjson o. subst o. repeat split.
  - by rewrite (call_not_a_dict _ _ _ stop _ _ Hans Hst parsed).
  - rewrite (call_not_a_dict _ _ _ stop _ _ Hans Hst parsed) by done.
    by eexists.
  - by rewrite (call_not_a_dict _ _ _ stop _ _ Hans Hst parsed).
  - subst parsed. by rewrite (call_no_data _ _ _ stop _ _ Hans Hst d).
  - subst parsed.
    rewrite (call_no_data _ _ _ stop _ _ Hans Hst d) by done. by eexists.
  - subst parsed. by rewrite (call_no_data _ _ _ stop _ _ Hans Hst d).
  - subst parsed. destruct (content_of_cases data) as [|[e He]]; [done|].
    rewrite (call_lookup_fails _ _ _ stop _ _ Hans Hst d data e) by done.
    exists e. repeat split; [|by apply (content_of_inl data)].
    destruct (content_of_inl data e He) as [H|[H|H]];
      by destruct e.
  - subst parsed. destruct (content_of_cases data) as [|[e He]]; [done|].
    rewrite (call_lookup_fails _ _ _ stop _ _ Hans Hst d data e) by done.
    intros (e' & [= <-] & Hk).
    destruct (content_of_inl data e He) as [H|[H|H]]; by destruct e.
  - subst parsed. destruct (content_of_cases data) as [|[e He]]; [done|].
    by rewrite (call_lookup_fails _ _ _ stop _ _ Hans Hst d data e).
  - intros Hno. subst parsed.
    rewrite (call_lookup_fails _ _ _ stop _ _ Hans Hst d (VDict dd)
               (KeyError (VStr "choices"))); try done.
    unfold content_of. simpl. by rewrite Hno.
  - intros Hempty. subst parsed.
    rewrite (call_lookup_fails _ _ _ stop _ _ Hans Hst d (VDict dd)
               IndexError); try done.
    unfold content_of. simpl. by rewrite Hempty.
  - intros c rest Hch Hc. subst parsed.
    rewrite (call_lookup_fails _ _ _ stop _ _ Hans Hst d (VDict dd)
               (KeyError (VStr "content"))); try done.
    unfold content_of. simpl. rewrite Hch. simpl. by rewrite Hc.
Qed.

(** The reply [{"unexpected": "shape"}] of the specification. *)
Lemma C1_witness :
  raises (_call (serving unexpected_shape) (client "k.s" false)
                "Who are you?" None ∅) ResponseParseError.
Proof.
  refine (proj1 (proj2 (proj1 (proj2
    (C1_parse_failures (serving unexpected_shape) (client "k.s" false)
       "Who are you?" None ∅ unexpected_shape
       (VDict {[ "unexpected" := VStr "shape" ]}) _ _ _))
    {[ "unexpected" := VStr "shape" ]} _ _))).
  - by apply answered_serving.
  - reflexivity.
  - reflexivity.
  - reflexivity.
  - vm_compute. reflexivity.
Defined.

(** ** C2 *)

(** C2, as stated, fails: two replies with status 500 and different bodies
    make [_call] raise the same exception, so the exception does not carry
    the body: nothing can read the body back from it. *)
Lemma C2_counterexample :
  let call_with r :=
    _call (serving r) (client "k.s" false) "Who are you?" None ∅ in
  result (call_with boom) = inl (Failed_with_response "<Response [500]>") /\
  result (call_with plain_500)
    = inl (Failed_with_response "<Response [500]>") /\
  text boom <> text plain_500 /\
  ~ exists body_of : exn -> string,
      forall r e, status_code r <> 200 ->
                  result (call_with r) = inl e -> body_of e = text r.
Proof.
  cbv zeta.
  assert (result (_call (serving boom) (client "k.s" false)
                        "Who are you?" None ∅)
          = inl (Failed_with_response "<Response [500]>")) as H1
    by (vm_compute; reflexivity).
  assert (result (_call (serving plain_500) (client "k.s" false)
                        "Who are you?" None ∅)
          = inl (Failed_with_response "<Response [500]>")) as H2
    by (vm_compute; reflexivity).
  assert (text boom <> text plain_500) as Hne by (vm_compute; discriminate).
  repeat split; try done.
  intros (body_of & Hbody). apply Hne.
  rewrite <- (Hbody boom _ ltac:(simpl; lia) H1).
  by rewrite <- (Hbody plain_500 _ ltac:(simpl; lia) H2).
Qed.

(** C2, amended: for every reply with a status other than 200, the call
    raises an UpstreamError whose message is the printed form of the
    response, which carries the status (and not the body); the client, and
    with it the history, is unchanged by the call. *)
Theorem C2_upstream_error env self prompt stop kwargs response :
  answered env self prompt kwargs response ->
  status_code response <> 200 ->
  let o := _call env self prompt stop kwargs in
  result o = inl (Failed_with_response (Response_str response)) /\
  raises o UpstreamError /\
  Response_str response = "<Response [" +:+ pretty (status_code response) +:+ "]>" /\
  (forall r, Response_str r = Response_str response <->
             status_code r = status_code response) /\
  self_after o = self /\
  history (self_after o) = history self.
Proof.
  intros Hans Hst o. subst o.
  destruct (call_answered _ _ _ stop _ _ Hans) as (request & _ & _ & _ & ->).
  destruct (decide _) as [|_]; [done|]. simpl.
  repeat split; try done.
  - by eexists.
  - by intros ?%Response_str_status.
  - by intros ?%Response_str_status.
Qed.

(** The reply 500 [{"error":"boom"}] of the specification. *)
Lemma C2_witness :
  let o := _call (serving boom) (client "k.s" true) "Who are you?" None ∅ in
  raises o UpstreamError /\ history (self_after o) = [].
Proof.
  pose proof (C2_upstream_error (serving boom) (client "k.s" true)
                "Who are you?" None ∅ boom
                ltac:(by apply answered_serving)
                ltac:(simpl; lia)) as H.
  cbv zeta in *. split; [apply H|]. apply (proj2 (proj2 (proj2 (proj2 (proj2 H))))).
Defined.

(** ** C6 *)

(** C6: for every reply with status 200 shaped as
    [{"data": {"choices": [{"content": s}]}}] with [s] a string, a call
    without stop markers returns exactly [s]. *)
Theorem C6_content_returned env self prompt kwargs response d dd c rest s :
  answered env self prompt kwargs response ->
  status_code response = 200 ->
  json response = inr (VDict d) ->
  d !! "data" = Some (VDict dd) ->
  dd !! "choices" = Some (VList (VDict c :: rest)) ->
  c !! "content" = Some (VStr s) ->
  result (_call env self prompt None kwargs) = inr (VStr s).
Proof.
  intros Hans Hst Hjson Hdata Hchoices Hcontent.
  apply (call_well_shaped _ _ _ None _ _ Hans Hst _ _ _ _ _
           Hjson Hdata Hchoices Hcontent).
Qed.

(** The example of the specification: prompt "Who are you?", no stop. *)
Lemma C6_witness :
  result (_call (serving i_am_a_model) (client "k.s" false) "Who are you?"
                None ∅)
  = inr (VStr "I am a model.").
Proof.
  apply (C6_content_returned (serving i_am_a_model) (client "k.s" false)
           "Who are you?" ∅ i_am_a_model
           {[ "data" := VDict {[ "choices" := choices_of (VStr "I am a model.") ]} ]}
           {[ "choices" := choices_of (VStr "I am a model.") ]}
           {[ "content" := VStr "I am a model." ]} []).
  - by apply answered_serving.
  - reflexivity.
  - reflexivity.
  - vm_compute. reflexivity.
  - vm_compute. reflexivity.
  - vm_compute. reflexivity.
Defined.

(** ** Before the request: the import and the key *)

Lemma call_import_fails env self prompt stop kwargs e :
  import_jwt_token env = inl e ->
  _call env self prompt stop kwargs = raise self [] (Must_install_zhipuai e).
Proof. intros H. unfold _call. by rewrite H. Qed.

Lemma call_no_key env self prompt stop kwargs generate_token :
  import_jwt_token env = inr generate_token ->
  api_key self = "" ->
  _call env self prompt stop kwargs = raise self [] Api_key_not_provided.
Proof.
  intros H Hkey. unfold _call. rewrite H. by destruct (decide _).
Qed.

(** ** C3 *)

(** C3, as stated, fails: with an empty key and the signing library not
    installed, what the call raises is the DependencyMissingError. *)
Lemma C3_counterexample :
  let o := _call not_installed default_ChatGLM "Who are you?" None ∅ in
  api_key default_ChatGLM = "" /\
  result o = inl (Must_install_zhipuai "No module named 'zhipuai'") /\
  ~ raises o ConfigurationError.
Proof.
  cbv zeta. rewrite (call_import_fails not_installed default_ChatGLM _ _ _
                       "No module named 'zhipuai'") by done.
  repeat split. intros (e & [= <-] & Hk). discriminate Hk.
Qed.

(** C3, amended: for every client whose API key is the empty string, the
    call fails without having issued any POST and leaves the client as it
    was; the failure is the ConfigurationError whenever the signing library
    can be imported (and the DependencyMissingError when it cannot). *)
Theorem C3_empty_key env self prompt stop kwargs :
  api_key self = "" ->
  let o := _call env self prompt stop kwargs in
  posts o = [] /\
  self_after o = self /\
  (exists e, result o = inl e) /\
  (forall generate_token, import_jwt_token env = inr generate_token ->
     result o = inl Api_key_not_provided /\ raises o ConfigurationError) /\
  (forall e, import_jwt_token env = inl e -> raises o DependencyMissingError).
Proof.
  intros Hkey o. subst o.
  destruct (import_jwt_token env) as [e|gen] eqn:Himp.
  - rewrite (call_import_fails _ _ _ _ _ e Himp). simpl.
    repeat split; try done; [by eexists|]. intros e' [= <-]. by eexists.
  - rewrite (call_no_key _ _ _ _ _ gen Himp Hkey). simpl.
    repeat split; try done; by eexists.
Qed.

(** A client without a key where the library is installed, and an endpoint
    that would answer. *)
Lemma C3_witness :
  let o := _call (serving i_am_a_model) default_ChatGLM "Who are you?"
                 None ∅ in
  posts o = [] /\ raises o ConfigurationError.
Proof.
  pose proof (C3_empty_key (serving i_am_a_model) default_ChatGLM
                "Who are you?" None ∅ eq_refl) as (Hposts & _ & _ & Hkey & _).
  cbv zeta in *. split; [exact Hposts|]. exact (proj2 (Hkey sign eq_refl)).
Defined.

(** ** C10 *)

(** C10: the import is attempted before the key is looked at.  For every
    client with an empty API key, if the signing library cannot be imported
    the call fails with the DependencyMissingError and not with the
    ConfigurationError; the ConfigurationError is raised when the import
    succeeds, and only then. *)
Theorem C10_import_checked_first env self prompt stop kwargs :
  api_key self = "" ->
  let o := _call env self prompt stop kwargs in
  (forall e, import_jwt_token env = inl e ->
     result o = inl (Must_install_zhipuai e) /\
     raises o DependencyMissingError /\ ~ raises o ConfigurationError) /\
  (forall generate_token, import_jwt_token env = inr generate_token ->
     raises o ConfigurationError) /\
  (raises o ConfigurationError ->
     exists generate_token, import_jwt_token env = inr generate_token).
Proof.
  intros Hkey o. subst o. repeat split.
  - by rewrite (call_import_fails _ _ _ _ _ e).
  - rewrite (call_import_fails _ _ _ _ _ e) by done. by eexists.
  - rewrite (call_import_fails _ _ _ _ _ e) by done.
    intros (e' & [= <-] & Hk). discriminate Hk.
  - intros gen Himp. rewrite (call_no_key _ _ _ _ _ gen) by done. by eexists.
  - destruct (import_jwt_token env) as [e|gen] eqn:Himp; [|by eexists].
    rewrite (call_import_fails _ _ _ _ _ e Himp).
    intros (e' & [= <-] & Hk). discriminate Hk.
Qed.

(** The default client (no key) where the library is not installed. *)
Lemma C10_witness :
  raises (_call not_installed default_ChatGLM "Who are you?" None ∅)
         DependencyMissingError.
Proof.
  exact (proj1 (proj2 (proj1
    (C10_import_checked_first not_installed default_ChatGLM "Who are you?"
       None ∅ eq_refl) "No module named 'zhipuai'" eq_refl))).
Defined.

(** ** The payload *)

Lemma lookup_update (p d : gmap string value) (k : string) :
  update p d !! k = match d !! k with
                    | Some v => Some v
                    | None => p !! k
                    end.
Proof.
  unfold update. rewrite lookup_union. by destruct (d !! k), (p !! k).
Qed.

Lemma lookup_build_payload self prompt kwargs k :
  build_payload self prompt kwargs !! k =
    match kwargs !! k with
    | Some v => Some v
    | None =>
        match default ∅ (model_kwargs self) !! k with
        | Some v => Some v
        | None => default_payload self prompt !! k
        end
    end.
Proof.
  unfold build_payload. cbv zeta.
  by rewrite !lookup_update, or_empty_default.
Qed.

(** What is posted does not depend on what the endpoint answers. *)
Lemma posts_call_env env env' self prompt stop kwargs :
  import_jwt_token env' = import_jwt_token env ->
  posts (_call env' self prompt stop kwargs)
  = posts (_call env self prompt stop kwargs).
Proof.
  intros Himp. unfold _call, raise. rewrite Himp.
  repeat (case_match; simpl; try rewrite !posts_unwrap; try done).
Qed.

(** ** C7 *)

(** C7: the payload of every request the call posts is the six built-in
    fields (prompt, temperature, history, max_length, top_p, return_type)
    overridden by the configured [model_kwargs] (none when unset), overridden
    in turn by the per-call keyword arguments: at every key the per-call
    value wins over the configured one, which wins over the default. *)
Theorem C7_payload_precedence env self prompt stop kwargs request :
  request ∈ posts (_call env self prompt stop kwargs) ->
  let M := default ∅ (model_kwargs self) in
  let D := default_payload self prompt in
  (forall k,
     req_json request !! k =
       match kwargs !! k with
       | Some v => Some v
       | None => match M !! k with
                 | Some v => Some v
                 | None => D !! k
                 end
       end) /\
  dom D = {[ "prompt"; "temperature"; "history"; "max_length"; "top_p";
             "return_type" ]} /\
  D !! "prompt" = Some (VStr prompt) /\
  D !! "temperature" = Some (VFloat (temperature self)) /\
  D !! "history" = Some (VList (history self)) /\
  D !! "max_length" = Some (VInt (max_token self)) /\
  D !! "top_p" = Some (VFloat (top_p self)) /\
  D !! "return_type" = Some (match return_type self with
                             | Some s => VStr s
                             | None => VNone
                             end).
Proof.
  intros Hin M D. subst M D.
  rewrite (posts_call _ _ _ _ _ _ Hin).
  split; [intros k; apply lookup_build_payload|].
  split; [unfold default_payload; by rewrite !dom_insert_L, dom_singleton_L|].
  repeat split; vm_compute; reflexivity.
Qed.

(** A client configured with [max_length = 512], called with the keyword
    arguments [top_p = 1] and [max_length = 7]. *)
Lemma C7_witness :
  let request := build_request tuned "Who are you?" overrides "jwt:k.s" in
  request ∈ posts (_call (serving i_am_a_model) tuned "Who are you?" None
                         overrides) /\
  req_json request !! "max_length" = Some (VInt 7) /\
  req_json request !! "top_p" = Some (VInt 1) /\
  req_json request !! "prompt" = Some (VStr "Who are you?").
Proof.
  cbv zeta.
  assert (build_request tuned "Who are you?" overrides "jwt:k.s"
          ∈ posts (_call (serving i_am_a_model) tuned "Who are you?" None
                         overrides)) as Hin.
  { apply list_elem_of_singleton. reflexivity. }
  split; [exact Hin|].
  pose proof (proj1 (C7_payload_precedence _ _ _ _ _ _ Hin)) as H.
  rewrite !H.
  split_and!; vm_compute; reflexivity.
Defined.

(** ** C8 *)

(** C8: for every client, the identifying parameters are a mapping with
    exactly the two keys endpoint_url and model_kwargs, the latter being the
    empty mapping when unset; there is no key for the API key, and the
    mapping does not change with the API key or with any field other than
    those two. *)
Theorem C8_identifying_params self :
  dom (_identifying_params self) = {[ "endpoint_url"; "model_kwargs" ]} /\
  _identifying_params self !! "endpoint_url"
    = Some (VStr (endpoint_url self)) /\
  _identifying_params self !! "model_kwargs"
    = Some (VDict (default ∅ (model_kwargs self))) /\
  _identifying_params self !! "api_key" = None /\
  forall key tokens temp hist p keep rtype,
    _identifying_params
      {| endpoint_url := endpoint_url self; api_key := key;
         model_kwargs := model_kwargs self; max_token := tokens;
         temperature := temp; history := hist; top_p := p;
         with_history := keep; return_type := rtype |}
    = _identifying_params self.
Proof.
  unfold _identifying_params, update. cbv zeta.
  rewrite or_empty_default. split_and!.
  - rewrite dom_union_L, !dom_singleton_L. apply (comm_L (∪)).
  - rewrite lookup_union_r by done. apply lookup_singleton_eq.
  - apply lookup_union_Some_l. apply lookup_singleton_eq.
  - vm_compute. reflexivity.
  - intros. cbn [endpoint_url model_kwargs]. by rewrite or_empty_default.
Qed.

(** ** C9 *)

(** C9, as stated, fails: a keyword argument named "history" replaces the
    field, so the payload sent is not the client's history. *)
Lemma C9_counterexample :
  let request := build_request seasoned "Who are you?" fresh_start "jwt:k.s" in
  posts (_call (serving i_am_a_model) seasoned "Who are you?" None
               fresh_start) = [request] /\
  req_json request !! "history" = Some (VList []) /\
  req_json request !! "history" <> Some (VList (history seasoned)).
Proof.
  cbv zeta.
  assert (req_json (build_request seasoned "Who are you?" fresh_start
                      "jwt:k.s") !! "history" = Some (VList [])) as H
    by (vm_compute; reflexivity).
  split_and!; [reflexivity|exact H|].
  rewrite H. intros [=].
Qed.

(** C9, amended: unless [model_kwargs] or a per-call keyword argument
    overrides the key "history" (the override is then what is sent), the
    "history" field of the payload of every request a call posts is the
    client's history as it was before that call; and what is posted does not
    depend on what the endpoint answers, so the entry appended after a
    successful call is never part of that call's own payload. *)
Theorem C9_history_snapshot env self prompt stop kwargs request :
  request ∈ posts (_call env self prompt stop kwargs) ->
  let M := default ∅ (model_kwargs self) in
  (kwargs !! "history" = None -> M !! "history" = None ->
     req_json request !! "history" = Some (VList (history self))) /\
  req_json request !! "history" =
    match kwargs !! "history" with
    | Some v => Some v
    | None => match M !! "history" with
              | Some v => Some v
              | None => Some (VList (history self))
              end
    end /\
  (forall env', import_jwt_token env' = import_jwt_token env ->
     posts (_call env' self prompt stop kwargs)
     = posts (_call env self prompt stop kwargs)).
Proof.
  intros Hin M. subst M.
  rewrite (posts_call _ _ _ _ _ _ Hin), lookup_build_payload.
  split_and!.
  - by intros -> ->.
  - by repeat case_match.
  - intros env' Himp. by apply posts_call_env.
Qed.

(** The client that has one exchange on record makes a successful call: the
    payload holds that one exchange, the client afterwards holds two. *)
Lemma C9_witness :
  let o := _call (serving i_am_a_model) seasoned "Who are you?" None ∅ in
  let request := build_request seasoned "Who are you?" ∅ "jwt:k.s" in
  posts o = [request] /\
  req_json request !! "history" = Some (VList (history seasoned)) /\
  length (history seasoned) = 1%nat /\
  length (history (self_after o)) = 2%nat.
Proof.
  cbv zeta.
  assert (build_request seasoned "Who are you?" ∅ "jwt:k.s"
          ∈ posts (_call (serving i_am_a_model) seasoned "Who are you?" None
                         ∅)) as Hin.
  { apply list_elem_of_singleton. reflexivity. }
  split_and!; [reflexivity| |reflexivity|reflexivity].
  apply (proj1 (C9_history_snapshot _ _ _ _ _ _ Hin)); vm_compute; reflexivity.
Defined.

(** ** Stop markers *)

Lemma prefix_app (m s : string) :
  String.prefix m s = true <-> exists post, s = m +:+ post.
Proof.
  revert s. induction m as [|a m IH]; intros s.
  - split; [intros _; by exists s|]. intros _. by destruct s.
  - destruct s as [|b s]; simpl.
    + split; [done|]. by intros (post & H).
    + destruct (Ascii.ascii_dec a b) as [->|Hne].
      * rewrite IH. split; intros (post & H); exists post.
        -- by rewrite string_app_cons, H.
        -- rewrite string_app_cons in H. by injection H.
      * split; [done|]. intros (post & H). rewrite string_app_cons in H.
        injection H as H _. by destruct Hne.
Qed.

Lemma find_eq (m s : string) :
  find m s = if String.prefix m s then Some 0%nat
             else match s with
                  | EmptyString => None
                  | String _ s' => S <$> find m s'
                  end.
Proof. by destruct s. Qed.

Lemma occurs_0 (m s : string) : occurs m s 0 <-> String.prefix m s = true.
Proof.
  rewrite prefix_app. split.
  - intros (pre & post & -> & Hlen). destruct pre; [|done]. by exists post.
  - intros (post & ->). by exists "", post.
Qed.

Lemma occurs_S (m : string) a (s : string) (j : nat) :
  occurs m (String a s) (S j) <-> occurs m s j.
Proof.
  split.
  - intros (pre & post & H & Hlen). destruct pre as [|b pre]; [done|].
    rewrite string_app_cons in H. injection H as _ ->. injection Hlen as Hlen.
    by exists pre, post.
  - intros (pre & post & -> & Hlen). exists (String a pre), post.
    split; [by rewrite string_app_cons|]. simpl. by rewrite Hlen.
Qed.

Lemma occurs_empty (m : string) (j : nat) : occurs m "" (S j) -> False.
Proof. intros (pre & post & H & Hlen). by destruct pre. Qed.

(** [find] returns the least index at which the marker occurs. *)
Lemma find_Some (m s : string) (i : nat) :
  find m s = Some i ->
  occurs m s i /\ forall j, occurs m s j -> (i <= j)%nat.
Proof.
  revert i. induction s as [|a s IH]; intros i; rewrite find_eq;
    destruct (String.prefix m _) eqn:Hp.
  - intros [= <-]. split; [by apply occurs_0|]. intros; lia.
  - done.
  - intros [= <-]. split; [by apply occurs_0|]. intros; lia.
  - destruct (find m s) as [i'|]; [|done]. intros [= <-].
    destruct (IH i' eq_refl) as [Hocc Hmin]. split; [by apply occurs_S|].
    intros [|j] Hj.
    + apply occurs_0 in Hj. congruence.
    + apply occurs_S, Hmin in Hj. lia.
Qed.

Lemma find_None (m s : string) (j : nat) : find m s = None -> ~ occurs m s j.
Proof.
  revert j. induction s as [|a s IH]; intros j; rewrite find_eq;
    destruct (String.prefix m _) eqn:Hp; try done.
  - intros _ Hj. destruct j; [apply occurs_0 in Hj; congruence|].
    by apply occurs_empty in Hj.
  - destruct (find m s) as [i'|]; [done|]. intros _ Hj.
    destruct j; [apply occurs_0 in Hj; congruence|].
    apply occurs_S in Hj. by apply (IH j).
Qed.

Lemma minimum_Some (l : list nat) (k : nat) :
  minimum l = Some k -> k ∈ l /\ forall n, n ∈ l -> (k <= n)%nat.
Proof.
  revert k. induction l as [|n l IH]; intros k; simpl; [done|].
  destruct (minimum l) as [m|] eqn:Hm.
  - intros [= <-]. destruct (IH m eq_refl) as [Hin Hle]. split.
    + destruct (Nat.min_spec n m) as [[_ ->]|[_ ->]];
        [apply list_elem_of_here|by apply list_elem_of_further].
    + intros x [->|Hx]%elem_of_cons; [lia|]. apply Hle in Hx. lia.
  - intros [= <-]. split; [apply list_elem_of_here|].
    destruct l; [|simpl in Hm; by destruct (minimum l)].
    intros x [->|Hx]%elem_of_cons; [lia|]. by apply elem_of_nil in Hx.
Qed.

Lemma minimum_None (l : list nat) : minimum l = None -> l = [].
Proof. destruct l; [done|]. simpl. by destruct (minimum l). Qed.

Lemma substring_app (pre rest : string) :
  String.substring 0 (String.length pre) (pre +:+ rest) = pre.
Proof.
  induction pre as [|a pre IH]; [by destruct rest|].
  rewrite string_app_cons. simpl. by rewrite IH.
Qed.

(** The helper cuts at the earliest occurrence of any marker. *)
Lemma enforce_stop_tokens_cut (txt : string) (stop : list string) :
  (exists marker i, marker ∈ stop /\ occurs marker txt i) ->
  exists marker pre post,
    marker ∈ stop /\ txt = pre +:+ marker +:+ post /\
    enforce_stop_tokens txt stop = pre /\
    forall marker' j, marker' ∈ stop -> occurs marker' txt j ->
                      (String.length pre <= j)%nat.
Proof.
  intros (m0 & i0 & Hm0 & Hocc0). unfold enforce_stop_tokens.
  destruct (minimum _) as [k|] eqn:Hmin.
  - apply minimum_Some in Hmin as [Hk Hle].
    apply list_elem_of_omap in Hk as (m & Hm & Hfind).
    apply find_Some in Hfind as [(pre & post & -> & Hlen) _].
    exists m, pre, post. split_and!; try done.
    + by rewrite <- Hlen, substring_app.
    + intros m' j Hm' Hj. rewrite Hlen.
      destruct (find m' (pre +:+ m +:+ post)) as [k'|] eqn:Hf.
      * pose proof (proj2 (find_Some _ _ _ Hf) j Hj).
        assert (k <= k')%nat; [|lia].
        apply Hle, list_elem_of_omap. by exists m'.
      * by apply (find_None _ _ j) in Hf.
  - apply minimum_None in Hmin.
    destruct (find m0 txt) as [k|] eqn:Hf.
    + assert (k ∈ omap (fun marker => find marker txt) stop) as Hin
        by (apply list_elem_of_omap; by exists m0).
      rewrite Hmin in Hin. by apply elem_of_nil in Hin.
    + by apply (find_None _ _ i0) in Hf.
Qed.

Lemma enforce_stop_tokens_unchanged (txt : string) (stop : list string) :
  (forall marker i, marker ∈ stop -> ~ occurs marker txt i) ->
  enforce_stop_tokens txt stop = txt.
Proof.
  intros Hnone. unfold enforce_stop_tokens.
  destruct (minimum _) as [k|] eqn:Hmin; [|done].
  apply minimum_Some in Hmin as [Hk _].
  apply list_elem_of_omap in Hk as (m & Hm & Hfind).
  apply find_Some in Hfind as [Hocc _]. by destruct (Hnone m k).
Qed.

(** ** C4 *)

(** C4: for every list of stop markers and every text the endpoint returns
    as content, the call returns the text cut by the helper; if a marker
    occurs in the text, what is returned is the part of the text before the
    earliest occurrence of any marker, and if none occurs the text is
    returned as it is. *)
Theorem C4_stop_markers env self prompt kwargs response d dd c rest txt stop :
  answered env self prompt kwargs response ->
  status_code response = 200 ->
  json response = inr (VDict d) ->
  d !! "data" = Some (VDict dd) ->
  dd !! "choices" = Some (VList (VDict c :: rest)) ->
  c !! "content" = Some (VStr txt) ->
  let cut := enforce_stop_tokens txt stop in
  result (_call env self prompt (Some stop) kwargs) = inr (VStr cut) /\
  ((exists marker i, marker ∈ stop /\ occurs marker txt i) ->
   exists marker pre post,
     marker ∈ stop /\ txt = pre +:+ marker +:+ post /\ cut = pre /\
     forall marker' j, marker' ∈ stop -> occurs marker' txt j ->
                       (String.length pre <= j)%nat) /\
  ((forall marker i, marker ∈ stop -> ~ occurs marker txt i) -> cut = txt).
Proof.
  intros Hans Hst Hjson Hdata Hchoices Hcontent cut. subst cut.
  split_and!.
  - apply (call_well_shaped _ _ _ (Some stop) _ _ Hans Hst _ _ _ _ _
             Hjson Hdata Hchoices Hcontent).
  - apply enforce_stop_tokens_cut.
  - apply enforce_stop_tokens_unchanged.
Qed.

(** The example of the specification: content "I am a model.", stop ["am"],
    result "I ". *)
Lemma C4_witness :
  result (_call (serving i_am_a_model) (client "k.s" false) "Who are you?"
                (Some ["am"]) ∅)
  = inr (VStr "I ").
Proof.
  apply (C4_stop_markers (serving i_am_a_model) (client "k.s" false)
           "Who are you?" ∅ i_am_a_model
           {[ "data" := VDict {[ "choices" := choices_of (VStr "I am a model.") ]} ]}
           {[ "choices" := choices_of (VStr "I am a model.") ]}
           {[ "content" := VStr "I am a model." ]} [] "I am a model." ["am"]).
  - by apply answered_serving.
  - reflexivity.
  - reflexivity.
  - vm_compute. reflexivity.
  - vm_compute. reflexivity.
  - vm_compute. reflexivity.
Defined.

(** ** The history *)

Lemma set_history_same self : set_history self (history self) = self.
Proof. by destruct self. Qed.

(** A successful call of a client that keeps a history appends the raw
    choices of the reply. *)
Lemma call_tracked self c v :
  with_history self = true ->
  result (call self c) = inr v ->
  exists choices,
    raw_choices c (call self c) = Some choices /\
    self_after (call self c)
    = set_history self (history self ++ [VList [VNone; choices]]).
Proof.
  intros Hon. unfold call, raw_choices, _call.
  destruct (import_jwt_token (call_env c)) as [|gen]; [done|].
  destruct (decide (api_key self = "")); [done|].
  destruct (gen (api_key self)) as [|jwt]; [done|]. cbv zeta.
  destruct (requests_post _ _) as [|response] eqn:Hpost; [done|].
  destruct (decide (status_code response = 200)); [|done].
  rewrite posts_unwrap, Hpost. unfold unwrap. rewrite Hon.
  destruct (json response) as [|parsed]; [done|].
  destruct parsed as [| | | | | |d]; try done.
  destruct (d !! "data") as [data|]; [|done].
  destruct (content_of data) as [|txt] eqn:Hc; [done|].
  destruct (trim txt (call_stop c)); [done|].
  apply content_of_inr in Hc as (dd & c' & rest & -> & Hdd & _).
  simpl. rewrite Hdd. simpl. intros _. by eexists.
Qed.

(** Whatever the call does, the client keeps its history as a prefix and
    every other field. *)
Lemma call_extends self c :
  exists entries,
    self_after (call self c) = set_history self (history self ++ entries).
Proof.
  destruct (result (call self c)) as [e|v] eqn:Hres.
  - exists []. rewrite app_nil_r, set_history_same. by apply (call_raises _ _ _ _ _ e).
  - destruct (with_history self) eqn:Hon.
    + destruct (call_tracked self c v Hon Hres) as (choices & _ & ->).
      by eexists.
    + exists []. rewrite app_nil_r, set_history_same. by apply call_untracked.
Qed.

Lemma final_cons self o outcomes :
  final self (o :: outcomes) = final (self_after o) outcomes.
Proof.
  unfold final. destruct outcomes as [|o' outcomes]; [done|].
  rewrite !fmap_cons, last_cons_cons.
  destruct (last _) eqn:Hlast; [done|]. by apply last_None in Hlast.
Qed.

Lemma run_tracked calls self :
  with_history self = true ->
  Forall succeeded (run self calls) ->
  exists entries : list value,
    history (final self (run self calls)) = (history self ++ entries)%list /\
    Forall2 (fun entry co => recorded co.1 co.2 entry)
            entries (zip calls (run self calls)).
Proof.
  revert self. induction calls as [|c calls IH]; intros self Hon Hall.
  - exists []. by rewrite app_nil_r.
  - simpl in Hall. apply Forall_cons in Hall as [Hc Hrest].
    unfold succeeded in Hc.
    destruct (result (call self c)) as [|v] eqn:Hres; [done|].
    destruct (call_tracked self c v Hon Hres) as (choices & Hraw & Hafter).
    destruct (IH (self_after (call self c))) as (entries & Hhist & Hentries).
    { by rewrite Hafter. }
    { done. }
    exists (VList [VNone; choices] :: entries). simpl. split.
    + rewrite final_cons, Hhist, Hafter. simpl. by rewrite <- List.app_assoc.
    + constructor; [by exists choices|done].
Qed.

(** ** C5 *)

(** C5: a call changes nothing of the client but its history, and the
    history only when the with-history flag is set and the call succeeds,
    by appending [[None, choices]] where [choices] is the value under
    "data"."choices" of the reply as the endpoint sent it; what was recorded
    before stays in place.  Hence a run of N successful calls of a client
    with the flag set that starts with an empty history leaves a history of
    length N whose entries are, in order, the raw choices of the N
    replies. *)
Theorem C5_history_append :
  (forall self c,
     (with_history self = false -> self_after (call self c) = self) /\
     (forall e, result (call self c) = inl e ->
                self_after (call self c) = self) /\
     (forall v, with_history self = true -> result (call self c) = inr v ->
        exists choices,
          raw_choices c (call self c) = Some choices /\
          self_after (call self c)
          = set_history self (history self ++ [VList [VNone; choices]])) /\
     (exists entries,
        self_after (call self c)
        = set_history self (history self ++ entries))) /\
  (forall self calls,
     with_history self = true -> history self = [] ->
     Forall succeeded (run self calls) ->
     length (history (final self (run self calls))) = length calls /\
     Forall2 (fun entry co => recorded co.1 co.2 entry)
             (history (final self (run self calls)))
             (zip calls (run self calls))).
Proof.
  split.
  - intros self c. split_and!.
    + apply call_untracked.
    + apply call_raises.
    + apply call_tracked.
    + apply call_extends.
  - intros self calls Hon Hempty Hall.
    destruct (run_tracked calls self Hon Hall) as (entries & Hhist & Hentries).
    rewrite Hempty in Hhist. simpl in Hhist. rewrite Hhist.
    split; [|done].
    apply Forall2_length in Hentries. rewrite Hentries, length_zip.
    assert (length (run self calls) = length calls) as ->; [|lia].
    clear. revert self. induction calls as [|c calls IH]; intros self;
      simpl; [done|]. by rewrite IH.
Qed.

(** Two calls with the stop marker "am": each returns "I ", and the history
    holds the two untrimmed replies. *)
Lemma C5_witness :
  let self := client "k.s" true in
  let calls := [asking (Some ["am"]); asking (Some ["am"])] in
  result <$> run self calls = [inr (VStr "I "); inr (VStr "I ")] /\
  history (final self (run self calls))
  = [VList [VNone; choices_of (VStr "I am a model.")];
     VList [VNone; choices_of (VStr "I am a model.")]] /\
  length (history (final self (run self calls))) = 2%nat.
Proof.
  cbv zeta. split_and!; [reflexivity|reflexivity|].
  apply (proj2 C5_history_append (client "k.s" true)
           [asking (Some ["am"]); asking (Some ["am"])]).
  - reflexivity.
  - reflexivity.
  - repeat constructor.
Defined.

(** * Further properties of [_call] and [_identifying_params] *)

(** ** What a posted request is *)

Lemma posts_call_request env self prompt stop kwargs request :
  request ∈ posts (_call env self prompt stop kwargs) ->
  exists generate_token jwt_api_key_,
    import_jwt_token env = inr generate_token /\
    api_key self <> "" /\
    generate_token (api_key self) = inr jwt_api_key_ /\
    request = build_request self prompt kwargs jwt_api_key_.
Proof.
  unfold _call, raise.
  destruct (import_jwt_token env) as [|gen]; simpl;
    [by intros ?%elem_of_nil|].
  destruct (decide (api_key self = "")) as [|Hkey]; simpl;
    [by intros ?%elem_of_nil|].
  destruct (gen (api_key self)) as [|jwt] eqn:Hjwt; simpl;
    [by intros ?%elem_of_nil|].
  intros Hin. exists gen, jwt. split_and!; try done.
  repeat (case_match; simpl in Hin; try rewrite posts_unwrap in Hin);
    by apply list_elem_of_singleton in Hin.
Qed.

(** X1: the transport failed (l.116-119): the cause is wrapped in a ValueError,
    the one request was handed over, the client is as it was. *)
Theorem X1_transport_error env self prompt stop kwargs generate_token jwt e :
  import_jwt_token env = inr generate_token ->
  api_key self <> "" ->
  generate_token (api_key self) = inr jwt ->
  requests_post env (build_request self prompt kwargs jwt) = inl e ->
  let o := _call env self prompt stop kwargs in
  result o = inl (Error_raised_by_endpoint e) /\
  raises o TransportError /\
  posts o = [build_request self prompt kwargs jwt] /\
  self_after o = self.
Proof.
  intros Himp Hkey Hjwt Hpost o. subst o. unfold _call.
  rewrite Himp. destruct (decide _) as [|_]; [done|].
  rewrite Hjwt. cbv zeta. rewrite Hpost. simpl.
  split_and!; try done. by eexists.
Qed.

Lemma X1_witness :
  raises (_call unreachable (client "k.s" true) "Who are you?" None ∅)
         TransportError.
Proof.
  apply (X1_transport_error unreachable (client "k.s" true) "Who are you?"
           None ∅ sign "jwt:k.s" "Connection refused");
    [reflexivity|discriminate|reflexivity|reflexivity].
Defined.

(** X2: the body of a reply with status 200 is not JSON (l.126-127, 138-142):
    the ValueError raised holds the decoder's complaint and the raw body, and
    the client is as it was. *)
Theorem X2_decoding_error env self prompt stop kwargs response e :
  answered env self prompt kwargs response ->
  status_code response = 200 ->
  json response = inl e ->
  let o := _call env self prompt stop kwargs in
  result o = inl (Error_during_decoding e (text response)) /\
  raises o ResponseParseError /\
  self_after o = self.
Proof.
  intros Hans Hst Hjson o. subst o.
  destruct (call_200 _ _ _ stop _ _ Hans Hst) as (sent & ->).
  unfold unwrap. rewrite Hjson. simpl. split_and!; try done. by eexists.
Qed.

Lemma X2_witness :
  result (_call (serving not_json) (client "k.s" true) "Who are you?"
                None ∅)
  = inl (Error_during_decoding "Expecting value: line 1 column 1 (char 0)"
                               "<html>busy</html>").
Proof.
  apply (X2_decoding_error (serving not_json) (client "k.s" true)
           "Who are you?" None ∅ not_json);
    [by apply answered_serving|reflexivity|reflexivity].
Defined.

(** X3: every request goes to the configured URL with exactly three headers:
    the two fixed ones and an Authorization header that holds what
    [generate_token] made of the API key (l.87-101, 117).  Neither the prompt
    nor the keyword arguments reach the URL or the headers. *)
Theorem X3_request_headers env self prompt stop kwargs request :
  request ∈ posts (_call env self prompt stop kwargs) ->
  req_url request = endpoint_url self /\
  dom (req_headers request)
    = {[ "Authorization"; "Accept"; "Content-Type" ]} /\
  req_headers request !! "Accept" = Some "application/json" /\
  req_headers request !! "Content-Type"
    = Some "application/json; charset=UTF-8" /\
  exists generate_token jwt,
    import_jwt_token env = inr generate_token /\
    generate_token (api_key self) = inr jwt /\
    req_headers request !! "Authorization" = Some jwt.
Proof.
  intros (gen & jwt & Himp & _ & Hjwt & ->)%posts_call_request.
  unfold build_request, build_headers. cbn [req_url req_headers].
  split_and!.
  - done.
  - by rewrite !dom_insert_L, dom_singleton_L.
  - vm_compute. reflexivity.
  - vm_compute. reflexivity.
  - exists gen, jwt. split_and!; [done|done|apply lookup_insert_eq].
Qed.

Lemma X3_witness :
  let request := build_request (client "k.s" false) "Who are you?" ∅
                   "jwt:k.s" in
  req_url request = "http://127.0.0.1:8000/" /\
  req_headers request !! "Accept" = Some "application/json".
Proof.
  cbv zeta.
  assert (build_request (client "k.s" false) "Who are you?" ∅ "jwt:k.s"
          ∈ posts (_call (serving i_am_a_model) (client "k.s" false)
                         "Who are you?" None ∅)) as Hin.
  { apply list_elem_of_singleton. reflexivity. }
  pose proof (X3_request_headers _ _ _ _ _ _ Hin) as (Hurl & _ & Hacc & _).
  split; [exact Hurl|exact Hacc].
Defined.

(** X4: [generate_token] raises (l.100): its exception escapes as it is, nothing
    is posted and the client is as it was. *)
Theorem X4_token_failure env self prompt stop kwargs generate_token e :
  import_jwt_token env = inr generate_token ->
  api_key self <> "" ->
  generate_token (api_key self) = inl e ->
  let o := _call env self prompt stop kwargs in
  result o = inl (Escaped e) /\
  posts o = [] /\
  self_after o = self /\
  forall k, ~ raises o k.
Proof.
  intros Himp Hkey Hjwt o. subst o. unfold _call.
  rewrite Himp. destruct (decide _) as [|_]; [done|].
  rewrite Hjwt. simpl. split_and!; try done.
  intros k (e' & [= <-] & Hk). discriminate Hk.
Qed.

Lemma X4_witness :
  posts (_call rejecting (client "k.s" true) "Who are you?" None ∅) = [].
Proof.
  apply (X4_token_failure rejecting (client "k.s" true) "Who are you?" None ∅
           (fun _ => inl "invalid api_key") "invalid api_key");
    [reflexivity|discriminate|reflexivity].
Defined.

(** ** The phases of a call *)

Lemma unwrap_class self sent stop response e :
  result (unwrap self sent stop response) = inl e ->
  class_of e = ValueErrorClass \/ class_of e = KeyErrorClass \/
  class_of e = IndexErrorClass \/ class_of e = TypeErrorClass.
Proof.
  unfold unwrap, raise.
  destruct (json response) as [|parsed]; [intros [= <-]; auto|].
  destruct parsed as [| | | | | |d]; try (intros [= <-]; by auto).
  destruct (d !! "data") as [data|]; [|intros [= <-]; by auto].
  destruct (content_of data) as [e'|txt] eqn:Hc.
  { intros [= <-]. destruct (content_of_inl _ _ Hc) as [|[|]]; auto. }
  destruct (trim txt stop) as [e'|txt'] eqn:Ht.
  { intros [= <-]. unfold trim in Ht. repeat case_match; simplify_eq; auto. }
  destruct (with_history self); [|done].
  destruct (getitem_str data "choices") as [e'|] eqn:Hg; [|done].
  intros [= <-]. unfold getitem_str in Hg.
  repeat case_match; simplify_eq; auto.
Qed.

Lemma unwrap_inr self sent stop response v :
  result (unwrap self sent stop response) = inr v ->
  exists d data txt,
    json response = inr (VDict d) /\ d !! "data" = Some data /\
    well_shaped data txt /\ trim txt stop = inr v.
Proof.
  unfold unwrap, raise.
  destruct (json response) as [|parsed]; [done|].
  destruct parsed as [| | | | | |d]; try done.
  destruct (d !! "data") as [data|] eqn:Hd; [|done].
  destruct (content_of data) as [|txt] eqn:Hc; [done|].
  destruct (trim txt stop) as [|txt'] eqn:Ht; [done|].
  intros Hres. exists d, data, txt. split_and!; try done.
  - by apply content_of_inr.
  - rewrite Ht. f_equal.
    destruct (with_history self); [|by injection Hres].
    destruct (getitem_str data "choices"); [done|]. by injection Hres.
Qed.

(** X5: a call posts at most once (there is no retry): exactly once when it
    returns, and when it raises, nothing was posted exactly if the exception
    is one of the two plain [Exception]s of l.94 and l.96 or the one that
    escaped from [generate_token]. *)
Theorem X5_one_post env self prompt stop kwargs :
  let o := _call env self prompt stop kwargs in
  (length (posts o) <= 1)%nat /\
  (forall v, result o = inr v -> length (posts o) = 1%nat) /\
  (forall e, result o = inl e ->
     (posts o = [] <->
      class_of e = ExceptionClass \/ class_of e = ForeignClass)).
Proof.
  cbv zeta. unfold _call.
  destruct (import_jwt_token env) as [err|gen]; simpl.
  { split_and!; [lia|done|]. intros e [= <-]. simpl. tauto. }
  destruct (decide (api_key self = "")) as [Hk|Hk]; simpl.
  { split_and!; [lia|done|]. intros e [= <-]. simpl. tauto. }
  destruct (gen (api_key self)) as [err|jwt]; simpl.
  { split_and!; [lia|done|]. intros e [= <-]. simpl. tauto. }
  destruct (requests_post _ _) as [err|response]; simpl.
  { split_and!; [lia|done|]. intros e [= <-]. simpl.
    split; [done|]. by intros [|]. }
  destruct (decide (status_code response = 200)) as [Hs|Hs]; simpl.
  - rewrite posts_unwrap. simpl. split_and!; [lia|done|].
    intros e He. split; [done|].
    destruct (unwrap_class _ _ _ _ _ He) as [H|[H|[H|H]]];
      rewrite H; by intros [|].
  - split_and!; [lia|done|]. intros e [= <-]. simpl.
    split; [done|]. by intros [|].
Qed.

Lemma X5_witness :
  length (posts (_call (serving i_am_a_model) (client "k.s" false)
                       "Who are you?" None ∅)) = 1%nat.
Proof.
  apply (proj1 (proj2 (X5_one_post (serving i_am_a_model)
                         (client "k.s" false) "Who are you?" None ∅))
           (VStr "I am a model.")).
  reflexivity.
Defined.

(** X6: a call returns only in one way: the import worked, there is a key, the
    token was signed, the reply had status 200, its body parsed to a mapping
    with "data", [data.choices[0].content] could be looked up, and what is
    returned is that content, trimmed if stop markers were given. *)
Theorem X6_returns_only_content env self prompt stop kwargs v :
  result (_call env self prompt stop kwargs) = inr v ->
  exists response d data txt,
    answered env self prompt kwargs response /\
    status_code response = 200 /\
    json response = inr (VDict d) /\
    d !! "data" = Some data /\
    well_shaped data txt /\
    trim txt stop = inr v /\
    (stop = None -> v = txt).
Proof.
  unfold _call.
  destruct (import_jwt_token env) as [|gen] eqn:Himp; [done|].
  destruct (decide (api_key self = "")) as [|Hkey]; [done|].
  destruct (gen (api_key self)) as [|jwt] eqn:Hjwt; [done|]. cbv zeta.
  destruct (requests_post _ _) as [|response] eqn:Hpost; [done|].
  destruct (decide (status_code response = 200)) as [Hst|]; [|done].
  intros (d & data & txt & Hjson & Hd & Hshape & Htrim)%unwrap_inr.
  exists response, d, data, txt. split_and!; try done.
  - by exists gen, jwt.
  - intros ->. simpl in Htrim. by injection Htrim.
Qed.

Lemma X6_witness :
  exists response d data txt,
    answered (serving i_am_a_model) (client "k.s" false) "Who are you?" ∅
             response /\
    status_code response = 200 /\
    json response = inr (VDict d) /\
    d !! "data" = Some data /\
    well_shaped data txt /\
    trim txt (Some ["am"]) = inr (VStr "I ") /\
    (Some ["am"] = None -> VStr "I " = txt).
Proof.
  apply (X6_returns_only_content (serving i_am_a_model) (client "k.s" false)
           "Who are you?" (Some ["am"]) ∅ (VStr "I ")).
  reflexivity.
Defined.

(** X7: without stop markers the content is returned whatever it is: a number, a
    list or null under "content" is handed back as it came, although the
    method is declared to return a [str]. *)
Theorem X7_any_content env self prompt kwargs response d data v :
  answered env self prompt kwargs response ->
  status_code response = 200 ->
  json response = inr (VDict d) ->
  d !! "data" = Some data ->
  well_shaped data v ->
  result (_call env self prompt None kwargs) = inr v.
Proof.
  intros Hans Hst Hjson Hd (dd & c & rest & -> & Hdd & Hc).
  apply (call_well_shaped _ _ _ None _ _ Hans Hst _ _ _ _ _
           Hjson Hd Hdd Hc).
Qed.

Lemma X7_witness :
  result (_call (serving (ok_response (envelope (VInt 42))))
                (client "k.s" false) "Who are you?" None ∅)
  = inr (VInt 42).
Proof.
  apply (X7_any_content (serving (ok_response (envelope (VInt 42))))
           (client "k.s" false) "Who are you?" ∅
           (ok_response (envelope (VInt 42)))
           {[ "data" := VDict {[ "choices" := choices_of (VInt 42) ]} ]}
           (VDict {[ "choices" := choices_of (VInt 42) ]})).
  - by apply answered_serving.
  - reflexivity.
  - reflexivity.
  - vm_compute. reflexivity.
  - exists {[ "choices" := choices_of (VInt 42) ]},
           {[ "content" := VInt 42 ]}, [].
    split_and!; [reflexivity|vm_compute; reflexivity|vm_compute; reflexivity].
Defined.

(** ** The keys of a payload *)

Lemma dom_default_payload self prompt :
  dom (default_payload self prompt) = six_fields.
Proof.
  unfold default_payload, six_fields.
  by rewrite !dom_insert_L, dom_singleton_L.
Qed.

(** X8: the two updates add and replace keys but remove none: the keys of a
    posted payload are the six built-in ones together with those of
    [model_kwargs] and of the keyword arguments (l.102-111). *)
Theorem X8_payload_keys env self prompt stop kwargs request :
  request ∈ posts (_call env self prompt stop kwargs) ->
  dom (req_json request)
    = dom kwargs ∪ (dom (default ∅ (model_kwargs self)) ∪ six_fields) /\
  six_fields ⊆ dom (req_json request).
Proof.
  intros Hin. rewrite (posts_call _ _ _ _ _ _ Hin).
  unfold build_payload, update. cbv zeta.
  rewrite !dom_union_L, or_empty_default, dom_default_payload.
  split; [done|].
  etrans; [|apply union_subseteq_r]. apply union_subseteq_r.
Qed.

Lemma X8_witness :
  let request := build_request tuned "Who are you?" overrides "jwt:k.s" in
  six_fields ⊆ dom (req_json request).
Proof.
  cbv zeta.
  assert (build_request tuned "Who are you?" overrides "jwt:k.s"
          ∈ posts (_call (serving i_am_a_model) tuned "Who are you?" None
                         overrides)) as Hin.
  { apply list_elem_of_singleton. reflexivity. }
  exact (proj2 (X8_payload_keys _ _ _ _ _ _ Hin)).
Defined.

(** ** Runs *)

Lemma run_extends calls self :
  exists entries,
    final self (run self calls)
    = set_history self (history self ++ entries).
Proof.
  revert self. induction calls as [|c calls IH]; intros self.
  - exists []. by rewrite app_nil_r, set_history_same.
  - simpl. rewrite final_cons.
    destruct (call_extends self c) as (first & Hfirst).
    destruct (IH (self_after (call self c))) as (entries & ->).
    rewrite Hfirst. exists (first ++ entries)%list.
    unfold set_history. simpl. by rewrite <- List.app_assoc.
Qed.

(** X9: calls change nothing of a client but its history, which only grows at
    the end; in particular the identifying parameters of a client are the
    same after any number of calls. *)
Theorem X9_run_keeps_configuration self calls :
  let self' := final self (run self calls) in
  endpoint_url self' = endpoint_url self /\
  api_key self' = api_key self /\
  model_kwargs self' = model_kwargs self /\
  max_token self' = max_token self /\
  temperature self' = temperature self /\
  top_p self' = top_p self /\
  with_history self' = with_history self /\
  return_type self' = return_type self /\
  (exists entries : list value,
     history self' = (history self ++ entries)%list) /\
  _identifying_params self' = _identifying_params self.
Proof.
  cbv zeta. destruct (run_extends calls self) as (entries & ->).
  split_and!; try done. by exists entries.
Qed.

Lemma call_length self c :
  length (history (self_after (call self c)))
  = (length (history self)
     + if with_history self && returned (call self c) then 1 else 0)%nat.
Proof.
  unfold returned. destruct (result (call self c)) as [e|v] eqn:Hres.
  - assert (self_after (call self c) = self) as ->
      by (by apply (call_raises _ _ _ _ _ e)).
    rewrite andb_false_r. lia.
  - destruct (with_history self) eqn:Hon; simpl.
    + destruct (call_tracked self c v Hon Hres) as (choices & _ & ->).
      simpl. rewrite length_app. simpl. lia.
    + assert (self_after (call self c) = self) as ->
        by (by apply call_untracked).
      lia.
Qed.

(** X10: after any run of calls, failed ones included, the history has grown by
    one entry for each call that returned if the client keeps a history,
    and not at all if it does not. *)
Theorem X10_history_length self calls :
  length (history (final self (run self calls)))
  = (length (history self)
     + if with_history self
       then length (List.filter returned (run self calls))
       else 0)%nat.
Proof.
  revert self. induction calls as [|c calls IH]; intros self.
  - unfold final. simpl. destruct (with_history self); simpl; lia.
  - simpl run. rewrite final_cons, IH, call_length.
    destruct (call_extends self c) as (entries & Hext).
    assert (with_history (self_after (call self c)) = with_history self)
      as -> by (by rewrite Hext).
    simpl. destruct (with_history self), (returned (call self c)); simpl; lia.
Qed.

Lemma lookup_history_sent self c request :
  request ∈ posts (call self c) ->
  call_kwargs c !! "history" = None ->
  default ∅ (model_kwargs self) !! "history" = None ->
  req_json request !! "history" = Some (VList (history self)).
Proof.
  intros Hin Hk Hm. unfold call in Hin.
  by rewrite (posts_call _ _ _ _ _ _ Hin), lookup_build_payload, Hk, Hm.
Qed.

(** X11: in a run, what a call sends as "history" (when the key is not
    overridden) is the history the calls before it have left: the raw
    choices recorded by one call are part of the payload of the next. *)
Theorem X11_history_sent self calls i c o request :
  calls !! i = Some c ->
  run self calls !! i = Some o ->
  request ∈ posts o ->
  call_kwargs c !! "history" = None ->
  default ∅ (model_kwargs self) !! "history" = None ->
  req_json request !! "history"
  = Some (VList (history (final self (take i (run self calls))))).
Proof.
  revert self i. induction calls as [|c0 calls IH]; intros self i; [done|].
  destruct i as [|i]; simpl.
  - intros [= ->] [= <-]. apply lookup_history_sent.
  - intros Hc Ho Hin Hk Hm. rewrite final_cons. apply IH; try done.
    destruct (call_extends self c0) as (entries & ->). done.
Qed.

Lemma X11_witness :
  let self := client "k.s" true in
  let calls := [asking (Some ["am"]); asking None] in
  let request :=
    build_request
      (set_history self [VList [VNone; choices_of (VStr "I am a model.")]])
      "Who are you?" ∅ "jwt:k.s" in
  req_json request !! "history"
  = Some (VList [VList [VNone; choices_of (VStr "I am a model.")]]).
Proof.
  cbv zeta.
  refine (X11_history_sent (client "k.s" true)
            [asking (Some ["am"]); asking None] 1 (asking None)
            (call (self_after (call (client "k.s" true)
                                    (asking (Some ["am"]))))
                  (asking None))
            _ eq_refl eq_refl _ eq_refl eq_refl).
  apply list_elem_of_singleton. reflexivity.
Defined.

(** ** An empty [model_kwargs] *)

Lemma unwrap_same_flag a b sent stop response :
  with_history a = with_history b -> history a = history b ->
  result (unwrap a sent stop response) = result (unwrap b sent stop response)
  /\ history (self_after (unwrap a sent stop response))
     = history (self_after (unwrap b sent stop response)).
Proof.
  intros Hflag Hhist. unfold unwrap, raise. rewrite Hflag, Hhist.
  repeat (case_match; simpl; try done).
Qed.

(** X12: [self.model_kwargs or {}] (l.56, l.84): a client configured with an
    empty [model_kwargs] behaves as one with none; the same request is
    posted, the same result comes back, the same history is kept and the
    identifying parameters are the same. *)
Theorem X12_empty_model_kwargs env self prompt stop kwargs :
  model_kwargs self = Some ∅ ->
  let bare := set_model_kwargs self None in
  posts (_call env self prompt stop kwargs)
    = posts (_call env bare prompt stop kwargs) /\
  result (_call env self prompt stop kwargs)
    = result (_call env bare prompt stop kwargs) /\
  history (self_after (_call env self prompt stop kwargs))
    = history (self_after (_call env bare prompt stop kwargs)) /\
  _identifying_params self = _identifying_params bare.
Proof.
  intros Hmk bare.
  assert (or_empty (model_kwargs self) = or_empty (model_kwargs bare)) as Hor.
  { rewrite Hmk. simpl. by case_decide. }
  assert (forall jwt, build_request self prompt kwargs jwt
                      = build_request bare prompt kwargs jwt) as Hreq.
  { intros jwt. unfold build_request, build_payload. cbv zeta.
    by rewrite Hor. }
  split_and!.
  - unfold _call. cbn [api_key bare set_model_kwargs].
    repeat (case_match; simpl; try rewrite !posts_unwrap; try done);
      by rewrite Hreq.
  - unfold _call. cbn [api_key bare set_model_kwargs].
    destruct (import_jwt_token env) as [|gen]; [done|].
    destruct (decide _) as [|_]; [done|].
    destruct (gen (api_key self)) as [|jwt]; [done|]. cbv zeta.
    rewrite <- Hreq. destruct (requests_post _ _) as [|response]; [done|].
    destruct (decide _); [|done].
    by apply unwrap_same_flag.
  - unfold _call. cbn [api_key bare set_model_kwargs].
    destruct (import_jwt_token env) as [|gen]; [done|].
    destruct (decide _) as [|_]; [done|].
    destruct (gen (api_key self)) as [|jwt]; [done|]. cbv zeta.
    rewrite <- Hreq. destruct (requests_post _ _) as [|response]; [done|].
    destruct (decide _); [|done].
    by apply unwrap_same_flag.
  - unfold _identifying_params. cbv zeta. by rewrite Hor.
Qed.

Lemma X12_witness :
  let self := set_model_kwargs (client "k.s" true) (Some ∅) in
  result (_call (serving i_am_a_model) self "Who are you?" None ∅)
  = result (_call (serving i_am_a_model)
                  (set_model_kwargs self None) "Who are you?" None ∅).
Proof.
  cbv zeta.
  exact (proj1 (proj2 (X12_empty_model_kwargs (serving i_am_a_model)
    (set_model_kwargs (client "k.s" true) (Some ∅)) "Who are you?" None ∅
    eq_refl))).
Defined.
